(** * Address QR-code modal: network resolution and display formatting

    A shallow embedding of the presentation logic of
    [ui/components/multichain-accounts/address-qr-code-modal/address-qr-code-modal.tsx]
    in its two revisions: the one that resolves the network from the
    [chainId] prop (module [ChainIdVariant]) and the one that resolves it
    from the account (module [AccountScopeVariant]).

    JavaScript strings are modelled by [string]; one character stands for
    one code unit, so [length], [substring], [startsWith], [includes] and
    concatenation act position by position as they do in the source. *)

From stdpp Require Import gmap strings list.
From Stdlib Require Import ZArith Lia Ascii DecimalString.

Local Open Scope Z_scope.

(** ** JavaScript string primitives *)

Module JsString.

(** [s.length] *)
Definition length (s : string) : Z := Z.of_nat (String.length s).

(** A string is truthy unless it is empty. *)
Definition truthy (s : string) : bool :=
  match s with
  | EmptyString => false
  | String _ _ => true
  end.

(** [s.startsWith(searchString)] *)
Fixpoint startsWith (s searchString : string) {struct searchString} : bool :=
  match searchString with
  | EmptyString => true
  | String c rest =>
      match s with
      | EmptyString => false
      | String d s' => Ascii.eqb c d && startsWith s' rest
      end
  end.

(** [s.includes(searchString)]: some position of [s] starts an occurrence. *)
Fixpoint includes (s searchString : string) : bool :=
  startsWith s searchString ||
  match s with
  | EmptyString => false
  | String _ s' => includes s' searchString
  end.

(** The first [n] code units, and what follows them. *)
Fixpoint take (n : nat) (s : string) : string :=
  match n, s with
  | S n', String c s' => String c (take n' s')
  | _, _ => EmptyString
  end.

Fixpoint drop (n : nat) (s : string) : string :=
  match n, s with
  | S n', String _ s' => drop n' s'
  | _, _ => s
  end.

(** [min(max(n, 0), len)] of String.prototype.substring *)
Definition clamp (n len : Z) : Z := Z.min (Z.max n 0) len.

(** [s.substring(start, end)]; [end_ = None] is the one-argument call.
    Both positions are clamped to [0, s.length] and swapped when the
    first exceeds the second. *)
Definition substring (s : string) (start : Z) (end_ : option Z) : string :=
  let len := length s in
  let intEnd := match end_ with Some e => e | None => len end in
  let finalStart := clamp start len in
  let finalEnd := clamp intEnd len in
  let from := Z.min finalStart finalEnd in
  let to := Z.max finalStart finalEnd in
  take (Z.to_nat (to - from)) (drop (Z.to_nat from) s).

(** [s.replace(/\/$/, '')]: the pattern matches one slash at the very end
    of the input, and the first (only) match is removed. *)
Fixpoint replaceTrailingSlash (s : string) : string :=
  match s with
  | EmptyString => EmptyString
  | String c s' =>
      match s' with
      | EmptyString => if Ascii.eqb c "/" then EmptyString else s
      | String _ _ => String c (replaceTrailingSlash s')
      end
  end.

End JsString.

(** ** Collaborators that live outside the component *)

(** Outcome of a call that may throw. *)
Inductive completion (A : Type) : Type :=
| Normal (value : A)
| Throw (error : string).
Arguments Normal {A} value.
Arguments Throw {A} error.

(** One [console.warn(...)] call with its arguments. *)
Inductive ConsoleCall : Type :=
| console_warn (args : list string).

(** One [openBlockExplorer(addressLink, metricsLocation, trackEvent)] call. *)
Inductive ExplorerCall : Type :=
| openBlockExplorer (addressLink metricsLocation : string).

(** The records held in [networkConfigurationsByChainId], keyed by CAIP
    chain id. [blockExplorerUrls] is absent on the non-EVM records. *)
Record NetworkConfiguration : Type := {
  chainId : string;
  name : string;
  nativeCurrency : string;
  blockExplorerUrls : option (list string);
  isEvm : bool
}.

Record InternalAccount : Type := {
  address : string;
  scopes : list string;
  metadata_name : string
}.

(** *** Localisation *)

(** The messages the stories install under [localeMessages.current]. *)
Definition localeMessages : list (string * string) :=
  [ ("addressQrCodeModalTitle", "$1 / $2");
    ("addressQrCodeModalHeading", "$1 Address");
    ("addressQrCodeModalDescription",
     "Use this address to receive tokens and collectibles on $1");
    ("viewOnExplorer", "View on Explorer");
    ("viewAddressOnExplorer", "View address on $1") ].

Fixpoint lookupMessage (messages : list (string * string)) (key : string)
  : option string :=
  match messages with
  | [] => None
  | (k, m) :: rest => if String.eqb k key then Some m else lookupMessage rest key
  end.

(** Index of a placeholder digit: [$1] is argument 0. *)
Definition placeholderIndex (c : ascii) : option nat :=
  match Ascii.is_nat c with
  | Some (S i) => Some i
  | _ => None
  end.

(** Replaces every [$n] of the message by the n-th substitution. *)
Fixpoint substitute (message : string) (substitutions : list string) : string :=
  match message with
  | EmptyString => EmptyString
  | String c rest =>
      match rest with
      | String d rest' =>
          match (if Ascii.eqb c "$" then placeholderIndex d else None) with
          | Some i =>
              match substitutions !! i with
              | Some arg => arg +:+ substitute rest' substitutions
              | None => String c (substitute rest substitutions)
              end
          | None => String c (substitute rest substitutions)
          end
      | EmptyString => String c EmptyString
      end
  end.

(** Modelled from the spec: the external localisation resolver
    [useI18nContext()] (key and positional arguments to display string),
    over the message table of the stories. *)
Definition t (key : string) (substitutions : list string) : string :=
  match lookupMessage localeMessages key with
  | Some message => substitute message substitutions
  | None => "[" +:+ key +:+ "]"
  end.

(** *** Hex chain ids *)

Definition hexDigit (c : ascii) : option N :=
  let n := N_of_ascii c in
  if ((48 <=? n) && (n <=? 57))%N then Some (n - 48)%N
  else if ((97 <=? n) && (n <=? 102))%N then Some (n - 87)%N
  else if ((65 <=? n) && (n <=? 70))%N then Some (n - 55)%N
  else None.

Fixpoint parseHex (acc : N) (digits : string) : option N :=
  match digits with
  | EmptyString => Some acc
  | String c rest =>
      match hexDigit c with
      | Some d => parseHex (16 * acc + d)%N rest
      | None => None
      end
  end.

Definition MAX_SAFE_INTEGER : N := (2 ^ 53 - 1)%N.

Definition decimal (n : N) : string := NilZero.string_of_uint (N.to_uint n).

(** Modelled from the spec: [toEvmCaipChainId] of the external package
    [@metamask/multichain-network-controller]. A string made of [0x] and
    hex digits becomes the EVM-namespace id of that number; malformed hex
    and out-of-range numbers make the conversion fail. *)
Definition hexToEvmCaipChainId (hex : string) : completion string :=
  if JsString.startsWith hex "0x" then
    match JsString.drop 2 hex with
    | EmptyString => Throw "Value must be a hexadecimal string."
    | digits =>
        match parseHex 0 digits with
        | Some n =>
            if (n <=? MAX_SAFE_INTEGER)%N then Normal ("eip155:" +:+ decimal n)
            else Throw "Number is not a safe integer."
        | None => Throw "Value must be a hexadecimal string."
        end
    end
  else Throw "Value must be a hexadecimal string.".

(** *** The scannable-code generator

    The external package [qrcode-generator], as far as the component
    drives it: byte-mode payloads, the capacity of the requested symbol and
    the overflow error of [make]. *)
Section QrGenerator.
Local Open Scope nat_scope.

(** One block of codewords of a symbol: its size and how many of its
    codewords carry data. *)
Record RSBlock : Type := { totalCount : nat; dataCount : nat }.

Definition MODE_8BIT_BYTE : N := 4.
Definition PAD0 : N := 236.
Definition PAD1 : N := 17.

(** [buffer.put(num, length)]: the [length] low bits of [num], highest
    first. *)
Definition put (num : N) (length : nat) : list bool :=
  (fun i => N.testbit num (N.of_nat (length - i - 1))) <$> seq 0 length.

(** The default [stringToBytes]: [charCodeAt(i) & 0xff] for every code
    unit. *)
Definition stringToBytes (s : string) : list N :=
  (fun c => N.land (N_of_ascii c) 255) <$> String.list_ascii_of_string s.

(** [data.write(buffer)] of a byte-mode payload: eight bits per byte. *)
Fixpoint write (bytes : list N) : list bool :=
  match bytes with
  | [] => []
  | byte :: rest => put byte 8 ++ write rest
  end.

(** Width of the count field of a byte-mode payload. *)
Definition getLengthInBits (typeNumber : Z) : completion nat :=
  if ((1 <=? typeNumber) && (typeNumber <? 10))%Z then Normal 8%nat
  else if (typeNumber <? 27)%Z then Normal 16%nat
  else if (typeNumber <? 41)%Z then Normal 16%nat
  else Throw ("type:" +:+ decimal (Z.to_N typeNumber)).

(** The block table of the package, of which the four rows of type number 4
    are carried here: the component asks for no other type number. A
    request outside these rows gets the error the package raises for a row
    it does not have. *)
Definition getRSBlocks (typeNumber : Z) (errorCorrectionLevel : string)
  : completion (list RSBlock) :=
  let bad := Throw ("bad rs block @ typeNumber:" +:+ decimal (Z.to_N typeNumber)
                    +:+ "/errorCorrectionLevel:" +:+ errorCorrectionLevel) in
  if (typeNumber =? 4)%Z then
    if String.eqb errorCorrectionLevel "L" then
      Normal (replicate 1 {| totalCount := 100; dataCount := 80 |})
    else if String.eqb errorCorrectionLevel "M" then
      Normal (replicate 2 {| totalCount := 50; dataCount := 32 |})
    else if String.eqb errorCorrectionLevel "Q" then
      Normal (replicate 2 {| totalCount := 50; dataCount := 24 |})
    else if String.eqb errorCorrectionLevel "H" then
      Normal (replicate 4 {| totalCount := 25; dataCount := 9 |})
    else bad
  else bad.

(** The end code: four zero bits, when they still fit. *)
Definition endCode (capacity : nat) (buffer : list bool) : list bool :=
  if decide (length buffer + 4 <= capacity) then buffer ++ put 0 4 else buffer.

(** Zero bits up to the next codeword boundary. *)
Definition padToByte (buffer : list bool) : list bool :=
  buffer ++ replicate ((8 - length buffer mod 8) mod 8) false.

(** The pad codewords [0xEC] and [0x11], in turn, until the capacity is
    reached; [fuel] bounds the loop. *)
Fixpoint padCodewords (fuel : nat) (capacity : nat) (first : bool)
    (buffer : list bool) : list bool :=
  match fuel with
  | O => buffer
  | S fuel' =>
      if decide (capacity <= length buffer) then buffer
      else padCodewords fuel' capacity (negb first)
             (buffer ++ put (if first then PAD0 else PAD1) 8)
  end.

(** One queued payload in the buffer: mode, count, bytes. *)
Definition segment (lengthBits : nat) (data : string) : list bool :=
  put MODE_8BIT_BYTE 4
  ++ put (N.of_nat (length (stringToBytes data))) lengthBits
  ++ write (stringToBytes data).

(** [createData]: the data codewords of the symbol as a bit sequence, or
    the overflow error when the payloads exceed the capacity. The error
    correction codewords and the placement into modules that follow are
    not part of the model. *)
Definition createData (typeNumber : Z) (errorCorrectionLevel : string)
    (dataList : list string) : completion (list bool) :=
  match getRSBlocks typeNumber errorCorrectionLevel with
  | Throw error => Throw error
  | Normal rsBlocks =>
      match getLengthInBits typeNumber with
      | Throw error => Throw error
      | Normal lengthBits =>
          let buffer := concat (segment lengthBits <$> dataList) in
          let capacity := (sum_list (dataCount <$> rsBlocks) * 8)%nat in
          if decide (capacity < length buffer) then
            Throw ("code length overflow. (" +:+ decimal (N.of_nat (length buffer))
                   +:+ ">" +:+ decimal (N.of_nat capacity) +:+ ")")
          else
            Normal (padCodewords capacity capacity true
                      (padToByte (endCode capacity buffer)))
      end
  end.

(** A [qrcode-generator] object: the requested type and level, the queued
    payloads and the data laid out by [make]. *)
Record QRCode : Type := {
  typeNumber : Z;
  errorCorrectionLevel : string;
  dataList : list string;
  dataCache : option (list bool)
}.

Definition qrCode (typeNumber : Z) (errorCorrectionLevel : string) : QRCode :=
  {| typeNumber := typeNumber;
     errorCorrectionLevel := errorCorrectionLevel;
     dataList := [];
     dataCache := None |}.

(** [addData] queues a byte-mode payload and drops the laid-out data. *)
Definition addData (qr : QRCode) (data : string) : QRCode :=
  {| typeNumber := typeNumber qr;
     errorCorrectionLevel := errorCorrectionLevel qr;
     dataList := dataList qr ++ [data];
     dataCache := None |}.

(** [make] lays the queued payloads out, unless that is already done. *)
Definition make (qr : QRCode) : completion QRCode :=
  match dataCache qr with
  | Some _ => Normal qr
  | None =>
      match createData (typeNumber qr) (errorCorrectionLevel qr) (dataList qr) with
      | Throw error => Throw error
      | Normal data =>
          Normal {| typeNumber := typeNumber qr;
                    errorCorrectionLevel := errorCorrectionLevel qr;
                    dataList := dataList qr;
                    dataCache := Some data |}
      end
  end.

End QrGenerator.

(** ** The revision that resolves the network from [chainId] *)

Module ChainIdVariant.

Definition QR_CODE_TYPE_NUMBER : Z := 4.
Definition QR_CODE_ERROR_CORRECTION_LEVEL : string := "M".
Definition PREFIX_LEN : Z := 6.
Definition SUFFIX_LEN : Z := 5.

Section Component.
(** The converter of [@metamask/multichain-network-controller], which
    returns an id of the [eip155] namespace or throws, and the registry
    selected from the store, an object keyed by CAIP chain id. *)
Variable toEvmCaipChainId : string -> completion string.
Variable networkConfigurationsByChainId : gmap string NetworkConfiguration.

(** The value assigned to [caipChainId], with the warnings emitted on
    the way; the empty string stands for an unusable chain id. The source
    reaches this block only for a non-empty [chainId]. *)
Definition caipChainId (chainId : string) : string * list ConsoleCall :=
  if JsString.startsWith chainId "eip155:" then (chainId, [])
  else if JsString.startsWith chainId "0x" then
    match toEvmCaipChainId chainId with
    | Normal converted => (converted, [])
    | Throw error =>
        ("", [console_warn ["Invalid hex chainId for CAIP conversion:";
                            chainId; error]])
    end
  else ("", [console_warn ["Unknown chainId format:"; chainId]]).

(** [multichainNetwork] after the lookup block, with the console output. *)
Definition multichainNetwork (chainId : string)
  : option NetworkConfiguration * list ConsoleCall :=
  if JsString.truthy chainId then
    let '(caip, console) := caipChainId chainId in
    (if JsString.truthy caip then networkConfigurationsByChainId !! caip
     else None,
     console)
  else (None, []).

(** [multichainNetwork?.name || 'Unknown Network'] *)
Definition networkName (network : option NetworkConfiguration) : string :=
  match network with
  | Some n => if JsString.truthy (name n) then name n else "Unknown Network"
  | None => "Unknown Network"
  end.

Definition addressStart (address : string) : string :=
  JsString.substring address 0 (Some PREFIX_LEN).

Definition addressMiddle (address : string) : string :=
  JsString.substring address PREFIX_LEN
    (Some (JsString.length address - SUFFIX_LEN)).

Definition addressEnd (address : string) : string :=
  JsString.substring address (JsString.length address - SUFFIX_LEN) None.

(** [qrImage] after [addData] and [make], or the error [make] throws. *)
Definition qrImage (address : string) : completion QRCode :=
  make (addData (qrCode QR_CODE_TYPE_NUMBER QR_CODE_ERROR_CORRECTION_LEVEL)
                address).

(** [multichainNetwork?.blockExplorerUrls?.length] is truthy exactly when
    the list is present and not empty; then element 0 is read. *)
Definition firstExplorerUrl (network : option NetworkConfiguration)
  : option string :=
  match network with
  | Some n =>
      match blockExplorerUrls n with
      | Some (explorerUrl :: _) => Some explorerUrl
      | _ => None
      end
  | None => None
  end.

Definition getExplorerButtonText (network : option NetworkConfiguration)
  : string :=
  match firstExplorerUrl network with
  | None => t "viewOnExplorer" []
  | Some explorerUrl =>
      if JsString.includes explorerUrl "etherscan" then
        t "viewAddressOnExplorer" ["Etherscan"]
      else if JsString.includes explorerUrl "bscscan" then
        t "viewAddressOnExplorer" ["BSCScan"]
      else if JsString.includes explorerUrl "polygonscan" then
        t "viewAddressOnExplorer" ["Polygonscan"]
      else if JsString.includes explorerUrl "arbiscan" then
        t "viewAddressOnExplorer" ["Arbiscan"]
      else if JsString.includes explorerUrl "solscan" then
        t "viewAddressOnExplorer" ["Solscan"]
      else t "viewOnExplorer" []
  end.

(** The calls the click handler makes. *)
Definition handleExplorerNavigation
    (network : option NetworkConfiguration) (address : string)
  : list ExplorerCall :=
  match firstExplorerUrl network with
  | None => []
  | Some explorerUrl =>
      let addressLink :=
        JsString.replaceTrailingSlash explorerUrl +:+ "/address/" +:+ address in
      [openBlockExplorer addressLink "Address QR Code Modal"]
  end.

(** What a completed render pass hands to the view. *)
Record Rendered : Type := {
  r_networkName : string;
  r_addressStart : string;
  r_addressMiddle : string;
  r_addressEnd : string;
  r_qrImage : QRCode;
  r_explorerButtonText : string;
  r_onExplorerClick : list ExplorerCall
}.

(** One render pass: the console output of the lookup, and then either what
    the view receives or the error that [qrImage.make()] throws, which
    abandons the pass after the warnings were issued. *)
Definition AddressQRCodeModal (address chainId : string)
  : list ConsoleCall * completion Rendered :=
  let '(network, console) := multichainNetwork chainId in
  (console,
   match qrImage address with
   | Throw error => Throw error
   | Normal image =>
       Normal {| r_networkName := networkName network;
                 r_addressStart := addressStart address;
                 r_addressMiddle := addressMiddle address;
                 r_addressEnd := addressEnd address;
                 r_qrImage := image;
                 r_explorerButtonText := getExplorerButtonText network;
                 r_onExplorerClick := handleExplorerNavigation network address |}
   end).

End Component.

End ChainIdVariant.

(** ** The revision that resolves the network from the account *)

Module AccountScopeVariant.

Definition QR_CODE_TYPE_NUMBER : Z := 4.
Definition QR_CODE_ERROR_CORRECTION_LEVEL : string := "M".
Definition PREFIX_LEN : Z := 6.
Definition SUFFIX_LEN : Z := 5.

Section Component.
Variable networkConfigurationsByChainId : gmap string NetworkConfiguration.
Variable internalAccounts : list InternalAccount.

(** Modelled from the spec: the selector [getInternalAccountByAddress]
    (under [ui/selectors]), which finds the known account an address
    belongs to. *)
Definition getInternalAccountByAddress (addr : string)
  : option InternalAccount :=
  List.find (fun account => String.eqb (address account) addr)
            internalAccounts.

(** The first scope, in the account's order, that is a key of the
    registry. *)
Fixpoint firstMatchingScope (accountScopes : list string) : option string :=
  match accountScopes with
  | [] => None
  | scope :: rest =>
      match networkConfigurationsByChainId !! scope with
      | Some _ => Some scope
      | None => firstMatchingScope rest
      end
  end.

(** Modelled from the spec: the selector [getMultichainNetwork] (under
    [ui/selectors/multichain]) applied to an account, which resolves the
    network implied by the account's first matching scope. *)
Definition getMultichainNetwork (account : InternalAccount)
  : option NetworkConfiguration :=
  match firstMatchingScope (scopes account) with
  | Some scope => networkConfigurationsByChainId !! scope
  | None => None
  end.

(** [multichainNetwork?.nickname || ''], on the value of
    [multichainNetwork?.nickname]: absent when there is no network. *)
Definition networkName (nickname : option string) : string :=
  match nickname with
  | Some shown => if JsString.truthy shown then shown else ""
  | None => ""
  end.

(** [accountInfo || account] *)
Definition targetAccount (addr : string) (account : option InternalAccount)
  : option InternalAccount :=
  match getInternalAccountByAddress addr with
  | Some accountInfo => Some accountInfo
  | None => account
  end.

Definition addressStart (address : string) : string :=
  JsString.substring address 0 (Some PREFIX_LEN).

Definition addressMiddle (address : string) : string :=
  JsString.substring address PREFIX_LEN
    (Some (JsString.length address - SUFFIX_LEN)).

Definition addressEnd (address : string) : string :=
  JsString.substring address (JsString.length address - SUFFIX_LEN) None.

(** [qrImage] after [addData] and [make], or the error [make] throws. *)
Definition qrImage (address : string) : completion QRCode :=
  make (addData (qrCode QR_CODE_TYPE_NUMBER QR_CODE_ERROR_CORRECTION_LEVEL)
                address).

End Component.

End AccountScopeVariant.

(** ** The store of the stories *)

Module Stories.

Definition SOLANA_MAINNET : string := "solana:5eykt4UsFv8P8NJdTREpY1vzqKqZKvdp".
Definition BITCOIN_MAINNET : string := "bip122:000000000019d6689c085ae165831e93".

Definition ethereumMainnet : NetworkConfiguration :=
  {| chainId := "eip155:1"; name := "Ethereum Mainnet"; nativeCurrency := "ETH";
     blockExplorerUrls := Some ["https://etherscan.io"]; isEvm := true |}.

Definition polygonMainnet : NetworkConfiguration :=
  {| chainId := "eip155:137"; name := "Polygon Mainnet"; nativeCurrency := "MATIC";
     blockExplorerUrls := Some ["https://polygonscan.com"]; isEvm := true |}.

Definition arbitrumOne : NetworkConfiguration :=
  {| chainId := "eip155:42161"; name := "Arbitrum One"; nativeCurrency := "ETH";
     blockExplorerUrls := Some ["https://arbiscan.io"]; isEvm := true |}.

Definition solanaMainnet : NetworkConfiguration :=
  {| chainId := SOLANA_MAINNET; name := "Solana Mainnet";
     nativeCurrency := SOLANA_MAINNET +:+ "/slip44:501";
     blockExplorerUrls := None; isEvm := false |}.

Definition bitcoinMainnet : NetworkConfiguration :=
  {| chainId := BITCOIN_MAINNET; name := "Bitcoin Mainnet";
     nativeCurrency := BITCOIN_MAINNET +:+ "/slip44:0";
     blockExplorerUrls := None; isEvm := false |}.

(** The EVM and non-EVM configurations of the mock state, under their
    CAIP keys. The explorer of Ethereum Mainnet comes from the mock state
    file, an Etherscan URL. *)
Definition networkConfigurationsByChainId : gmap string NetworkConfiguration :=
  <["eip155:1" := ethereumMainnet]>
  (<["eip155:137" := polygonMainnet]>
  (<["eip155:42161" := arbitrumOne]>
  (<[SOLANA_MAINNET := solanaMainnet]>
  (<[BITCOIN_MAINNET := bitcoinMainnet]> ∅)))).

Definition polygon : InternalAccount :=
  {| address := "0xabcdef1234567890abcdef1234567890abcdef12";
     scopes := ["eip155:137"];
     metadata_name := "Polygon Account" |}.

Definition arbitrum : InternalAccount :=
  {| address := "0x2468135790abcdef1234567890abcdef12345678";
     scopes := ["eip155:42161"];
     metadata_name := "Arbitrum Account" |}.

Definition internalAccounts : list InternalAccount := [polygon; arbitrum].


End Stories.

(** ** The header name and the buttons of the account revision *)

Module Header.

(** [account?.metadata?.name]: an absent account or name reads as the empty
    string, which [||] treats like [undefined]. *)
Definition nameOf (account : option InternalAccount) : string :=
  match account with
  | Some a => metadata_name a
  | None => ""
  end.

(** [accountInfo?.metadata?.name || account?.metadata?.name || ''], the same
    expression in both revisions. *)
Definition accountName (accountInfo account : option InternalAccount) : string :=
  if JsString.truthy (nameOf accountInfo) then nameOf accountInfo
  else if JsString.truthy (nameOf account) then nameOf account
  else "".

End Header.

Module AccountScopeButtons.

Section Buttons.
(** [getAccountTypeCategory] and [getMultichainAccountUrl] live outside the
    component; the registry is the one the network selector reads. *)
Variable getAccountTypeCategory : InternalAccount -> string.
Variable getMultichainAccountUrl : string -> option NetworkConfiguration -> string.
Variable networkConfigurationsByChainId : gmap string NetworkConfiguration.

(** [accountInfo || account] *)
Definition orAccount (accountInfo account : option InternalAccount)
  : option InternalAccount :=
  match accountInfo with
  | Some info => Some info
  | None => account
  end.

(** [multichainNetwork], the network selected for [accountInfo || account],
    when one of the two is present. *)
Definition multichainNetwork (accountInfo account : option InternalAccount)
  : option NetworkConfiguration :=
  match orAccount accountInfo account with
  | Some target =>
      AccountScopeVariant.getMultichainNetwork networkConfigurationsByChainId target
  | None => None
  end.

Definition getExplorerButtonText (accountInfo account : option InternalAccount)
  : string :=
  match orAccount accountInfo account with
  | None => t "viewOnExplorer" []
  | Some targetAccount =>
      if String.eqb (getAccountTypeCategory targetAccount) "evm" then
        t "viewAddressOnExplorer" ["Etherscan"]
      else if String.eqb (getAccountTypeCategory targetAccount) "solana" then
        t "viewAddressOnExplorer" ["Solscan"]
      else t "viewOnExplorer" []
  end.

(** The calls the click handler makes. *)
Definition handleExplorerNavigation
    (accountInfo account : option InternalAccount) (address : string)
  : list ExplorerCall :=
  match account, accountInfo with
  | None, None => []
  | _, _ =>
      let addressLink :=
        getMultichainAccountUrl address (multichainNetwork accountInfo account) in
      if JsString.truthy addressLink
      then [openBlockExplorer addressLink "Address QR Code Modal"]
      else []
  end.

End Buttons.

End AccountScopeButtons.

(** ** The store the stories build *)

Module StoryState.

(** Values of the configuration objects. *)
#[warnings="-register-all"]
Inductive JsValue : Type :=
| JsStr (s : string)
| JsNum (n : Z)
| JsArr (items : list JsValue)
| JsObj (fields : list (string * JsValue)).

Definition polygonConfiguration : gmap string JsValue :=
  <["defaultBlockExplorerUrlIndex" := JsNum 0]>
  (<["blockExplorerUrls" := JsArr [JsStr "https://polygonscan.com"]]>
  (<["defaultRpcEndpointIndex" := JsNum 0]>
  (<["rpcEndpoints" :=
       JsArr [JsObj [("networkClientId", JsStr "polygon");
                     ("type", JsStr "custom");
                     ("url", JsStr "https://polygon-rpc.com")]]]>
  (<["nativeCurrency" := JsStr "MATIC"]>
  (<["name" := JsStr "Polygon Mainnet"]>
  (<["chainId" := JsStr "0x89"]> ∅)))))).

Definition arbitrumConfiguration : gmap string JsValue :=
  <["defaultBlockExplorerUrlIndex" := JsNum 0]>
  (<["blockExplorerUrls" := JsArr [JsStr "https://arbiscan.io"]]>
  (<["defaultRpcEndpointIndex" := JsNum 0]>
  (<["rpcEndpoints" :=
       JsArr [JsObj [("networkClientId", JsStr "arbitrum");
                     ("type", JsStr "custom");
                     ("url", JsStr "https://arb1.arbitrum.io/rpc")]]]>
  (<["nativeCurrency" := JsStr "ETH"]>
  (<["name" := JsStr "Arbitrum One"]>
  (<["chainId" := JsStr "0xa4b1"]> ∅)))))).

Section CreateMockState.
(** [mockState.metamask.networkConfigurationsByChainId] *)
Variable mockNetworkConfigurations : gmap string (gmap string JsValue).

(** [{ ...mock['0x1'], name: 'Ethereum Mainnet' }]; spreading an absent
    entry adds nothing. *)
Definition ethereumConfiguration : gmap string JsValue :=
  <["name" := JsStr "Ethereum Mainnet"]>
    (default ∅ (mockNetworkConfigurations !! "0x1")).

(** [Object.fromEntries(Object.entries(mock).filter(([chainId]) =>
    !['0x1'].includes(chainId)))] *)
Definition withoutEthereum : gmap string (gmap string JsValue) :=
  filter (fun entry => entry.1 ≠ "0x1") mockNetworkConfigurations.

(** The object literal: the three written entries, then the spread of the
    remaining mock entries, a later key replacing an earlier one. *)
Definition networkConfigurationsByChainId : gmap string (gmap string JsValue) :=
  withoutEthereum
  ∪ <["0xa4b1" := arbitrumConfiguration]>
      (<["0x89" := polygonConfiguration]>
      (<["0x1" := ethereumConfiguration]> ∅)).

End CreateMockState.

End StoryState.

(** Further registry entries for the examples. *)
Module Examples.

Definition gnosisWithExplorer (url : string) : NetworkConfiguration :=
  {| chainId := "eip155:100"; name := "Gnosis"; nativeCurrency := "XDAI";
     blockExplorerUrls := Some [url]; isEvm := true |}.

Definition amoy : NetworkConfiguration :=
  {| chainId := "eip155:80002"; name := "Amoy"; nativeCurrency := "POL";
     blockExplorerUrls :=
       Some ["https://polygonscan.com"; "https://amoy.polygonscan.com"];
     isEvm := true |}.

End Examples.

(** *** Shapes of chain identifiers *)







(** *** Reading a symbol's data back *)

Section QrReading.
Local Open Scope nat_scope.





End QrReading.

(** A statement word: [s] ends in a slash. *)
Definition endsWithSlash (s : string) : Prop := exists v, s = v +:+ "/".

(** A statement word: the call carries a link and the modal's origin tag. *)
Definition wellFormedCall (call : ExplorerCall) : Prop :=
  match call with
  | openBlockExplorer addressLink metricsLocation =>
      JsString.truthy addressLink = true
      /\ metricsLocation = "Address QR Code Modal"
  end.

(** ** Vocabulary of the statements *)

(** [sub] occurs somewhere in [s]. *)
Definition contains (s sub : string) : Prop :=
  exists before after, s = before +:+ sub +:+ after.


(** * Facts about the string primitives *)

Section StringFacts.

Lemma append_cons (c : ascii) (s r : string) :
  String c s +:+ r = String c (s +:+ r).
Proof. reflexivity. Qed.

Lemma append_empty_l (s : string) : "" +:+ s = s.
Proof. reflexivity. Qed.

Lemma append_empty_r (s : string) : s +:+ "" = s.
Proof.
  induction s as [|c s IH]; [reflexivity|].
  now rewrite append_cons, IH.
Qed.

Lemma append_assoc (a b c : string) : (a +:+ b) +:+ c = a +:+ b +:+ c.
Proof.
  induction a as [|x a IH]; [reflexivity|].
  now rewrite !append_cons, IH.
Qed.

Lemma take_drop (n : nat) (s : string) :
  JsString.take n s +:+ JsString.drop n s = s.
Proof.
  revert s; induction n as [|n IH]; intros [|c s]; try reflexivity.
  cbn [JsString.take JsString.drop]. now rewrite append_cons, IH.
Qed.

Lemma take_all (n : nat) (s : string) :
  (String.length s <= n)%nat -> JsString.take n s = s.
Proof.
  revert s; induction n as [|n IH]; intros [|c s] Hlen;
    cbn [String.length] in Hlen; try reflexivity; try lia.
  cbn [JsString.take]. f_equal. apply IH. lia.
Qed.

Lemma take_length (n : nat) (s : string) :
  String.length (JsString.take n s) = Nat.min n (String.length s).
Proof.
  revert s; induction n as [|n IH]; intros [|c s]; try reflexivity.
  cbn [JsString.take String.length]. rewrite IH. lia.
Qed.

Lemma drop_length (n : nat) (s : string) :
  String.length (JsString.drop n s) = (String.length s - n)%nat.
Proof.
  revert s; induction n as [|n IH]; intros [|c s]; try reflexivity.
  cbn [JsString.drop String.length]. now rewrite IH.
Qed.

Lemma drop_all (n : nat) (s : string) :
  (String.length s <= n)%nat -> JsString.drop n s = "".
Proof.
  revert s; induction n as [|n IH]; intros [|c s] Hlen;
    cbn [String.length] in Hlen; try reflexivity; try lia.
  cbn [JsString.drop]. apply IH. lia.
Qed.

Lemma drop_drop (n m : nat) (s : string) :
  JsString.drop n (JsString.drop m s) = JsString.drop (m + n) s.
Proof.
  revert s; induction m as [|m IH]; intros s; [reflexivity|].
  destruct s as [|c s].
  - now destruct n.
  - cbn [JsString.drop Nat.add]. apply IH.
Qed.

Lemma take_take_drop (n m : nat) (s : string) :
  JsString.take n s +:+ JsString.take m (JsString.drop n s)
  = JsString.take (n + m) s.
Proof.
  revert s; induction n as [|n IH]; intros s.
  - now destruct s.
  - destruct s as [|c s]; [now destruct m|].
    cbn [JsString.take JsString.drop Nat.add].
    now rewrite append_cons, IH.
Qed.

(** Inside the string, [substring] is the slice between the two positions. *)
Lemma substring_slice (s : string) (from to : Z) :
  0 <= from <= to -> to <= JsString.length s ->
  JsString.substring s from (Some to)
  = JsString.take (Z.to_nat (to - from)) (JsString.drop (Z.to_nat from) s).
Proof.
  intros Hft Hto. unfold JsString.substring, JsString.clamp.
  replace (Z.min (Z.max from 0) (JsString.length s)) with from by lia.
  replace (Z.min (Z.max to 0) (JsString.length s)) with to by lia.
  replace (Z.min from to) with from by lia.
  now replace (Z.max from to) with to by lia.
Qed.

(** Positions given in the wrong order are swapped. *)
Lemma substring_swapped (s : string) (from to : Z) :
  0 <= to <= from -> from <= JsString.length s ->
  JsString.substring s from (Some to)
  = JsString.take (Z.to_nat (from - to)) (JsString.drop (Z.to_nat to) s).
Proof.
  intros Hft Hto. unfold JsString.substring, JsString.clamp.
  replace (Z.min (Z.max from 0) (JsString.length s)) with from by lia.
  replace (Z.min (Z.max to 0) (JsString.length s)) with to by lia.
  replace (Z.min from to) with to by lia.
  now replace (Z.max from to) with from by lia.
Qed.

(** The one-argument call returns the tail from the clamped position. *)
Lemma substring_tail (s : string) (from : Z) :
  JsString.substring s from None
  = JsString.drop (Z.to_nat (JsString.clamp from (JsString.length s))) s.
Proof.
  unfold JsString.substring.
  set (len := JsString.length s). set (f := JsString.clamp from len).
  assert (Hlen : 0 <= len) by (unfold len, JsString.length; lia).
  assert (Hf : 0 <= f <= len) by (unfold f, JsString.clamp; lia).
  replace (JsString.clamp len len) with len by (unfold JsString.clamp; lia).
  replace (Z.min f len) with f by lia.
  replace (Z.max f len) with len by lia.
  apply take_all. rewrite drop_length.
  unfold len, JsString.length in *. lia.
Qed.

Lemma startsWith_append (s searchString : string) :
  JsString.startsWith s searchString = true
  <-> exists rest, s = searchString +:+ rest.
Proof.
  revert s; induction searchString as [|c p IH]; intros s; cbn [JsString.startsWith].
  - split; [intros _; now exists s | reflexivity].
  - destruct s as [|d s].
    + split; [discriminate | intros [r Hr]; discriminate].
    + rewrite andb_true_iff, Ascii.eqb_eq, IH. split.
      * intros [-> [r ->]]. now exists r.
      * intros [r Hr]. rewrite append_cons in Hr.
        injection Hr as -> ->. split; [reflexivity | now exists r].
Qed.



Lemma replaceTrailingSlash_slash (v : string) :
  JsString.replaceTrailingSlash (v +:+ "/") = v.
Proof.
  induction v as [|c v IH]; [reflexivity|].
  rewrite append_cons. cbn [JsString.replaceTrailingSlash].
  rewrite IH. now destruct v.
Qed.

Lemma replaceTrailingSlash_other (s : string) :
  (forall v, s <> v +:+ "/") -> JsString.replaceTrailingSlash s = s.
Proof.
  induction s as [|c s IH]; intros Hno; [reflexivity|].
  cbn [JsString.replaceTrailingSlash]. destruct s as [|d s].
  - destruct (Ascii.eqb_spec c "/") as [->|]; [|reflexivity].
    now destruct (Hno "").
  - f_equal. apply IH. intros v Hv. apply (Hno (String c v)).
    now rewrite append_cons, Hv.
Qed.



End StringFacts.

(** * Facts about the scannable-code generator *)

Section QrFacts.

Lemma put_length (num : N) (width : nat) : length (put num width) = width.
Proof. unfold put. by rewrite length_fmap, length_seq. Qed.




Lemma stringToBytes_length (s : string) :
  length (stringToBytes s) = String.length s.
Proof.
  unfold stringToBytes. rewrite length_fmap.
  induction s as [|c s IH]; [reflexivity|]. cbn. by rewrite IH.
Qed.

Lemma write_length (bytes : list N) : length (write bytes) = (8 * length bytes)%nat.
Proof.
  induction bytes as [|b rest IH]; [reflexivity|].
  cbn [write]. rewrite length_app, put_length, IH. cbn [length]. lia.
Qed.


Lemma segment_length (data : string) :
  length (segment 8 data) = (12 + 8 * String.length data)%nat.
Proof.
  unfold segment.
  rewrite !length_app, !put_length, write_length, stringToBytes_length. lia.
Qed.


Lemma padCodewords_extends (fuel capacity : nat) (first : bool) (buffer : list bool) :
  exists padding, padCodewords fuel capacity first buffer = buffer ++ padding.
Proof.
  revert first buffer. induction fuel as [|fuel IH]; intros first buffer.
  - exists []. by rewrite app_nil_r.
  - cbn [padCodewords]. case_decide.
    + exists []. by rewrite app_nil_r.
    + destruct (IH (negb first) (buffer ++ put (if first then PAD0 else PAD1) 8))
        as [padding ->].
      eexists. by rewrite <- app_assoc.
Qed.

(** Up to 62 code units fit a symbol of type 4 and level M. *)
Lemma createData_fits (data : string) :
  (String.length data <= 62)%nat ->
  exists padding,
    createData 4 "M" [data] = Normal (segment 8 data ++ put 0 4 ++ padding).
Proof.
  intros Hfits. unfold createData.
  change (getRSBlocks 4 "M")
    with (Normal (replicate 2 {| totalCount := 50; dataCount := 32 |})).
  change (getLengthInBits 4) with (Normal 8%nat).
  cbn [fmap list_fmap concat]. rewrite app_nil_r.
  change (sum_list _ * 8)%nat with 512%nat.
  rewrite decide_False by (rewrite segment_length; lia).
  unfold endCode, padToByte.
  rewrite decide_True by (rewrite segment_length; lia).
  destruct (padCodewords_extends 512 512 true
              ((segment 8 data ++ put 0 4)
               ++ replicate ((8 - length (segment 8 data ++ put 0 4) mod 8) mod 8)
                    false)) as [padding ->].
  eexists. by rewrite <- !app_assoc.
Qed.

(** From 63 code units on, the data exceed the 512 bits of that symbol. *)
Lemma createData_overflow (data : string) :
  (62 < String.length data)%nat ->
  createData 4 "M" [data]
  = Throw ("code length overflow. ("
           +:+ decimal (N.of_nat (12 + 8 * String.length data))
           +:+ ">512)").
Proof.
  intros Hlong. unfold createData.
  change (getRSBlocks 4 "M")
    with (Normal (replicate 2 {| totalCount := 50; dataCount := 32 |})).
  change (getLengthInBits 4) with (Normal 8%nat).
  cbn [fmap list_fmap concat]. rewrite app_nil_r.
  change (sum_list _ * 8)%nat with 512%nat.
  rewrite decide_True by (rewrite segment_length; lia).
  by rewrite segment_length.
Qed.

Lemma qrImage_createData (address : string) :
  ChainIdVariant.qrImage address
  = match createData 4 "M" [address] with
    | Throw error => Throw error
    | Normal data =>
        Normal {| typeNumber := 4; errorCorrectionLevel := "M";
                  dataList := [address]; dataCache := Some data |}
    end.
Proof. reflexivity. Qed.

Lemma qrImage_fits (address : string) :
  (String.length address <= 62)%nat ->
  exists padding,
    ChainIdVariant.qrImage address
    = Normal {| typeNumber := 4; errorCorrectionLevel := "M";
                dataList := [address];
                dataCache := Some (segment 8 address ++ put 0 4 ++ padding) |}.
Proof.
  intros Hfits. destruct (createData_fits address Hfits) as [padding Hdata].
  exists padding. by rewrite qrImage_createData, Hdata.
Qed.

Lemma qrImage_overflow (address : string) :
  (62 < String.length address)%nat ->
  ChainIdVariant.qrImage address
  = Throw ("code length overflow. ("
           +:+ decimal (N.of_nat (12 + 8 * String.length address))
           +:+ ">512)").
Proof.
  intros Hlong. by rewrite qrImage_createData, (createData_overflow _ Hlong).
Qed.

End QrFacts.

(** * Chain-identifier normalisation and network lookup *)

Section Lookup.
Variable toEvmCaipChainId : string -> completion string.
Variable registry : gmap string NetworkConfiguration.

Local Abbreviation caipChainId := (ChainIdVariant.caipChainId toEvmCaipChainId).
Local Abbreviation multichainNetwork :=
  (ChainIdVariant.multichainNetwork toEvmCaipChainId registry).

Lemma startsWith_truthy (s : string) (c : ascii) (rest : string) :
  JsString.startsWith s (String c rest) = true -> JsString.truthy s = true.
Proof. destruct s; [discriminate | reflexivity]. Qed.

(** An id of the [eip155:] namespace is kept as it is and looked up under
    itself; the converter plays no part and nothing is logged. *)
Lemma eip155_id_passes_through (chainId : string) :
  JsString.startsWith chainId "eip155:" = true ->
  caipChainId chainId = (chainId, [])
  /\ multichainNetwork chainId = (registry !! chainId, []).
Proof.
  intros Hprefix.
  unfold ChainIdVariant.multichainNetwork, ChainIdVariant.caipChainId.
  rewrite Hprefix, (startsWith_truthy _ _ _ Hprefix). split; reflexivity.
Qed.

(** Whatever the branch, the lookup is the registry entry of the
    normalised id, and none when that id is empty. *)
Lemma multichainNetwork_lookup (chainId : string) :
  fst (multichainNetwork chainId)
  = if JsString.truthy chainId && JsString.truthy (fst (caipChainId chainId))
    then registry !! fst (caipChainId chainId) else None.
Proof.
  unfold ChainIdVariant.multichainNetwork.
  destruct (JsString.truthy chainId); [|reflexivity].
  destruct (ChainIdVariant.caipChainId toEvmCaipChainId chainId) as [caip console].
  cbn [fst andb]. now destruct (JsString.truthy caip).
Qed.

Lemma truthy_false (s : string) : JsString.truthy s = false <-> s = "".
Proof. destruct s; split; (discriminate || reflexivity). Qed.

(** A render pass issues the warnings of the lookup and then either
    completes with the values derived from the looked-up network, or is
    abandoned with the error of [qrImage.make()]. *)
Lemma AddressQRCodeModal_outcome (address chainId : string) :
  ChainIdVariant.AddressQRCodeModal toEvmCaipChainId registry address chainId
  = (snd (multichainNetwork chainId),
     match ChainIdVariant.qrImage address with
     | Throw error => Throw error
     | Normal image =>
         Normal
           {| ChainIdVariant.r_networkName :=
                ChainIdVariant.networkName (fst (multichainNetwork chainId));
              ChainIdVariant.r_addressStart := ChainIdVariant.addressStart address;
              ChainIdVariant.r_addressMiddle := ChainIdVariant.addressMiddle address;
              ChainIdVariant.r_addressEnd := ChainIdVariant.addressEnd address;
              ChainIdVariant.r_qrImage := image;
              ChainIdVariant.r_explorerButtonText :=
                ChainIdVariant.getExplorerButtonText (fst (multichainNetwork chainId));
              ChainIdVariant.r_onExplorerClick :=
                ChainIdVariant.handleExplorerNavigation
                  (fst (multichainNetwork chainId)) address |}
     end).
Proof.
  unfold ChainIdVariant.AddressQRCodeModal.
  now destruct (ChainIdVariant.multichainNetwork _ _ chainId).
Qed.

(** C4, amended. When the chain identifier normalises to the empty
    (unknown) id, or the registry has no entry under the normalised id, the
    lookup of the chain-identifier revision yields no record and the network
    name is "Unknown Network" in every render that completes; a render
    completes when the address has at most 62 code units and is abandoned
    with the encoder's error when it has more. The account revision shows
    the empty string, not "Unknown Network", when it has no nickname to
    show. *)
Theorem unknown_chain_degrades_to_placeholder (address chainId : string) :
  fst (caipChainId chainId) = "" \/ registry !! fst (caipChainId chainId) = None ->
  (fst (multichainNetwork chainId) = None
   /\ ChainIdVariant.networkName (fst (multichainNetwork chainId)) = "Unknown Network"
   /\ (forall rendered,
         snd (ChainIdVariant.AddressQRCodeModal toEvmCaipChainId registry
                address chainId) = Normal rendered ->
         ChainIdVariant.r_networkName rendered = "Unknown Network")
   /\ ((String.length address <= 62)%nat ->
       exists rendered,
         snd (ChainIdVariant.AddressQRCodeModal toEvmCaipChainId registry
                address chainId) = Normal rendered)
   /\ ((62 < String.length address)%nat ->
       exists error,
         snd (ChainIdVariant.AddressQRCodeModal toEvmCaipChainId registry
                address chainId) = Throw error))
  /\ (forall nickname,
        AccountScopeVariant.networkName nickname = ""
        <-> nickname = None \/ nickname = Some "").
Proof.
  intros Hunknown.
  assert (Hnone : fst (multichainNetwork chainId) = None).
  { rewrite multichainNetwork_lookup.
    destruct (JsString.truthy chainId); [|reflexivity].
    destruct Hunknown as [-> | Hmiss]; [reflexivity|].
    cbn [andb]. now destruct (JsString.truthy _). }
  split; [split; [exact Hnone|]; split; [now rewrite Hnone|]; split; [|split]|].
  - intros rendered. rewrite AddressQRCodeModal_outcome. cbn [snd].
    destruct (ChainIdVariant.qrImage address); [|discriminate].
    intros [= <-]. cbn. now rewrite Hnone.
  - intros Hfits. rewrite AddressQRCodeModal_outcome. cbn [snd].
    destruct (qrImage_fits address Hfits) as [padding ->]. eauto.
  - intros Hlong. rewrite AddressQRCodeModal_outcome. cbn [snd].
    rewrite (qrImage_overflow address Hlong). eauto.
  - intros [shown|]; cbn.
    + destruct shown; cbn; split; try discriminate; eauto.
      intros [Hnick | Hnick]; discriminate.
    + split; eauto.
Qed.


End Lookup.

(** C1. The registry of the stories holds the Solana record under its
    canonical id, yet the lookup with that id as [chainId] takes the
    unknown-format branch: no record is resolved, a warning is logged and a
    render that completes shows "Unknown Network", the generic button label
    and a button that opens nothing. *)
Theorem solana_canonical_id_is_not_resolved
    (toEvmCaipChainId : string -> completion string) (address : string) :
  Stories.networkConfigurationsByChainId !! Stories.SOLANA_MAINNET
  = Some Stories.solanaMainnet
  /\ ChainIdVariant.caipChainId toEvmCaipChainId Stories.SOLANA_MAINNET
     = ("", [console_warn ["Unknown chainId format:"; Stories.SOLANA_MAINNET]])
  /\ ChainIdVariant.multichainNetwork toEvmCaipChainId
       Stories.networkConfigurationsByChainId Stories.SOLANA_MAINNET
     = (None, [console_warn ["Unknown chainId format:"; Stories.SOLANA_MAINNET]])
  /\ ChainIdVariant.AddressQRCodeModal toEvmCaipChainId
       Stories.networkConfigurationsByChainId address Stories.SOLANA_MAINNET
     = ([console_warn ["Unknown chainId format:"; Stories.SOLANA_MAINNET]],
        match ChainIdVariant.qrImage address with
        | Throw error => Throw error
        | Normal image =>
            Normal
              {| ChainIdVariant.r_networkName := "Unknown Network";
                 ChainIdVariant.r_addressStart := ChainIdVariant.addressStart address;
                 ChainIdVariant.r_addressMiddle := ChainIdVariant.addressMiddle address;
                 ChainIdVariant.r_addressEnd := ChainIdVariant.addressEnd address;
                 ChainIdVariant.r_qrImage := image;
                 ChainIdVariant.r_explorerButtonText := "View on Explorer";
                 ChainIdVariant.r_onExplorerClick := [] |}
        end).
Proof.
  split; [vm_compute; reflexivity|]. split; [reflexivity|].
  split; [reflexivity|].
  rewrite AddressQRCodeModal_outcome. reflexivity.
Qed.



(** The claim of C4 fails in the account revision, whose placeholder is
    the empty string, and for an address of 63 code units, whose render is
    abandoned by the encoder. *)
Lemma placeholder_is_not_always_unknown_network :
  ~ (forall nickname : option string,
       nickname = None ->
       AccountScopeVariant.networkName nickname = "Unknown Network")
  /\ ~ (forall address : string,
          exists rendered,
            snd (ChainIdVariant.AddressQRCodeModal hexToEvmCaipChainId
                   Stories.networkConfigurationsByChainId address "mainnet")
            = Normal rendered
            /\ ChainIdVariant.r_networkName rendered = "Unknown Network").
Proof.
  split.
  - intros Hclaim. specialize (Hclaim None eq_refl). discriminate Hclaim.
  - intros Hclaim.
    destruct (Hclaim
                "bc1p5d7rjq7g6rdk2yhzks9smlaqtedr4dekq08ge8ztwac72sfr9rusxg3297x")
      as [rendered [Hrender _]].
    vm_compute in Hrender. discriminate Hrender.
Qed.

Lemma unknown_chain_degrades_to_placeholder_witness :
  (fst (ChainIdVariant.multichainNetwork hexToEvmCaipChainId
          Stories.networkConfigurationsByChainId "0x539") = None
   /\ ChainIdVariant.networkName
        (fst (ChainIdVariant.multichainNetwork hexToEvmCaipChainId
                Stories.networkConfigurationsByChainId "0x539"))
      = "Unknown Network"
   /\ (forall rendered,
         snd (ChainIdVariant.AddressQRCodeModal hexToEvmCaipChainId
                Stories.networkConfigurationsByChainId
                "0x1111222233334444555566667777888899990000" "0x539")
         = Normal rendered ->
         ChainIdVariant.r_networkName rendered = "Unknown Network")
   /\ ((String.length "0x1111222233334444555566667777888899990000" <= 62)%nat ->
       exists rendered,
         snd (ChainIdVariant.AddressQRCodeModal hexToEvmCaipChainId
                Stories.networkConfigurationsByChainId
                "0x1111222233334444555566667777888899990000" "0x539")
         = Normal rendered)
   /\ ((62 < String.length "0x1111222233334444555566667777888899990000")%nat ->
       exists error,
         snd (ChainIdVariant.AddressQRCodeModal hexToEvmCaipChainId
                Stories.networkConfigurationsByChainId
                "0x1111222233334444555566667777888899990000" "0x539")
         = Throw error))
  /\ (forall nickname,
        AccountScopeVariant.networkName nickname = ""
        <-> nickname = None \/ nickname = Some "").
Proof.
  apply (unknown_chain_degrades_to_placeholder hexToEvmCaipChainId
           Stories.networkConfigurationsByChainId).
  right. vm_compute. reflexivity.
Defined.

(** * The two resolution paths *)

(** The lookup by chain identifier follows the chain identifier alone: no
    selector that looks at the account only gives the same record for every
    chain identifier. *)
Lemma chain_path_follows_the_chain_id_alone :
  ~ (exists selector : InternalAccount -> option NetworkConfiguration,
       forall (chainId : string) (account : InternalAccount),
         fst (ChainIdVariant.multichainNetwork hexToEvmCaipChainId
                Stories.networkConfigurationsByChainId chainId)
         = selector account).
Proof.
  intros [selector Hsame].
  pose proof (Hsame "eip155:1" Stories.polygon) as Hethereum.
  pose proof (Hsame "eip155:137" Stories.polygon) as Hpolygon.
  rewrite <- Hpolygon in Hethereum. vm_compute in Hethereum.
  discriminate Hethereum.
Qed.

(** * The explorer button *)

Section Explorer.

Lemma firstExplorerUrl_first (network : NetworkConfiguration)
    (explorerUrl : string) (others : list string) :
  blockExplorerUrls network = Some (explorerUrl :: others) ->
  ChainIdVariant.firstExplorerUrl (Some network) = Some explorerUrl.
Proof. intros Hurls. cbn. now rewrite Hurls. Qed.

Lemma firstExplorerUrl_none (network : option NetworkConfiguration) :
  network = None
  \/ (exists n, network = Some n
              /\ (blockExplorerUrls n = None \/ blockExplorerUrls n = Some [])) ->
  ChainIdVariant.firstExplorerUrl network = None.
Proof.
  intros [-> | (n & -> & [Hurls | Hurls])]; cbn; [reflexivity| |]; now rewrite Hurls.
Qed.


(** C8. With no resolved network, or one whose explorer URL list is absent
    or empty, the button shows "View on Explorer" and a click opens
    nothing. *)
Theorem no_explorer_means_generic_label_and_no_navigation
    (network : option NetworkConfiguration) (address : string) :
  network = None
  \/ (exists n, network = Some n
              /\ (blockExplorerUrls n = None \/ blockExplorerUrls n = Some [])) ->
  ChainIdVariant.getExplorerButtonText network = "View on Explorer"
  /\ ChainIdVariant.firstExplorerUrl network = None
  /\ ChainIdVariant.handleExplorerNavigation network address = [].
Proof.
  intros Hnone. apply firstExplorerUrl_none in Hnone.
  unfold ChainIdVariant.getExplorerButtonText, ChainIdVariant.handleExplorerNavigation.
  rewrite Hnone. repeat split; reflexivity.
Qed.


End Explorer.



Lemma no_explorer_means_generic_label_and_no_navigation_witness :
  ChainIdVariant.getExplorerButtonText (Some Stories.solanaMainnet)
  = "View on Explorer"
  /\ ChainIdVariant.firstExplorerUrl (Some Stories.solanaMainnet) = None
  /\ ChainIdVariant.handleExplorerNavigation (Some Stories.solanaMainnet)
       "7EcDhSYGxXyscszYEp35KHN8vvw3svAuLKTzXwCFLtV" = [].
Proof.
  apply (no_explorer_means_generic_label_and_no_navigation
           (Some Stories.solanaMainnet)).
  right. exists Stories.solanaMainnet. split; [reflexivity|]. left. reflexivity.
Defined.



(** * Address segmentation *)

Section Segmentation.
Local Open Scope nat_scope.

Lemma take_min (n : nat) (s : string) :
  JsString.take (Nat.min n (String.length s)) s = JsString.take n s.
Proof.
  destruct (Nat.le_ge_cases n (String.length s)) as [Hle | Hge].
  - now rewrite Nat.min_l.
  - rewrite Nat.min_r by exact Hge. now rewrite !take_all by lia.
Qed.

(** The prefix is the first six code units, or the whole address when it
    is shorter. *)
Lemma addressStart_take (address : string) :
  ChainIdVariant.addressStart address = JsString.take 6 address.
Proof.
  unfold ChainIdVariant.addressStart, ChainIdVariant.PREFIX_LEN.
  unfold JsString.substring, JsString.clamp, JsString.length.
  rewrite <- (take_min 6).
  match goal with
  | |- JsString.take ?k (JsString.drop ?d _) = _ =>
      replace d with 0 by lia;
      replace k with (Nat.min 6 (String.length address)) by lia
  end.
  reflexivity.
Qed.

(** The suffix starts five code units before the end, or at the start when
    the address is shorter. *)
Lemma addressEnd_drop (address : string) :
  ChainIdVariant.addressEnd address
  = JsString.drop (String.length address - 5) address.
Proof.
  unfold ChainIdVariant.addressEnd, ChainIdVariant.SUFFIX_LEN.
  rewrite substring_tail. f_equal.
  unfold JsString.clamp, JsString.length. lia.
Qed.

Lemma addressMiddle_long (address : string) :
  11 <= String.length address ->
  ChainIdVariant.addressMiddle address
  = JsString.take (String.length address - 11) (JsString.drop 6 address).
Proof.
  intros Hlen.
  unfold ChainIdVariant.addressMiddle,
    ChainIdVariant.PREFIX_LEN, ChainIdVariant.SUFFIX_LEN.
  rewrite substring_slice by (unfold JsString.length; lia).
  unfold JsString.length. f_equal; lia.
Qed.

(** Below eleven code units the end position falls before the start
    position, the two are swapped, and the middle is the stretch shared by
    prefix and suffix. *)
Lemma addressMiddle_short (address : string) :
  String.length address < 11 ->
  ChainIdVariant.addressMiddle address
  = JsString.take
      (Nat.min 6 (String.length address) - (String.length address - 5))
      (JsString.drop (String.length address - 5) address).
Proof.
  intros Hlen.
  unfold ChainIdVariant.addressMiddle,
    ChainIdVariant.PREFIX_LEN, ChainIdVariant.SUFFIX_LEN.
  unfold JsString.substring, JsString.clamp, JsString.length.
  f_equal; [lia|]. f_equal. lia.
Qed.

(** C6. For an address of at least eleven code units, prefix, middle and
    suffix put together are the address, the prefix has six and the suffix
    five code units; at exactly eleven the middle is empty and prefix and
    suffix alone make up the address. Both revisions segment alike. *)
Theorem segments_reassemble_the_address (address : string) :
  11 <= String.length address ->
  (ChainIdVariant.addressStart address +:+ ChainIdVariant.addressMiddle address
     +:+ ChainIdVariant.addressEnd address = address
   /\ String.length (ChainIdVariant.addressStart address) = 6
   /\ String.length (ChainIdVariant.addressEnd address) = 5
   /\ (String.length address = 11 ->
       ChainIdVariant.addressMiddle address = ""
       /\ ChainIdVariant.addressStart address +:+ ChainIdVariant.addressEnd address
          = address))
  /\ AccountScopeVariant.addressStart address = ChainIdVariant.addressStart address
  /\ AccountScopeVariant.addressMiddle address = ChainIdVariant.addressMiddle address
  /\ AccountScopeVariant.addressEnd address = ChainIdVariant.addressEnd address.
Proof.
  intros Hlen. split; [|repeat split; reflexivity].
  rewrite addressStart_take, addressEnd_drop, (addressMiddle_long _ Hlen).
  assert (Hall : JsString.take 6 address
                 +:+ JsString.take (String.length address - 11) (JsString.drop 6 address)
                 +:+ JsString.drop (String.length address - 5) address = address).
  { rewrite <- append_assoc, take_take_drop.
    replace (6 + (String.length address - 11)) with (String.length address - 5) by lia.
    apply take_drop. }
  split; [exact Hall|].
  split; [rewrite take_length; lia|].
  split; [rewrite drop_length; lia|].
  intros Heleven. rewrite Heleven in Hall |- *.
  cbn [Nat.sub JsString.take] in Hall |- *.
  split; [now destruct (JsString.drop 6 address) | exact Hall].
Qed.

(** C7. For an address shorter than eleven code units the three segments
    are still defined: the prefix is the first six code units (the whole
    address when shorter), the suffix the last five (the whole address when
    shorter), and the middle is the stretch on which prefix and suffix
    overlap. Both revisions segment alike. *)
Theorem short_address_segments_overlap (address : string) :
  String.length address < 11 ->
  let n := String.length address in
  (ChainIdVariant.addressStart address = JsString.take 6 address
   /\ ChainIdVariant.addressEnd address = JsString.drop (n - 5) address
   /\ ChainIdVariant.addressMiddle address
      = JsString.take (Nat.min 6 n - (n - 5)) (JsString.drop (n - 5) address)
   /\ ChainIdVariant.addressStart address
      = JsString.take (n - 5) address +:+ ChainIdVariant.addressMiddle address
   /\ ChainIdVariant.addressEnd address
      = ChainIdVariant.addressMiddle address +:+ JsString.drop (Nat.min 6 n) address)
  /\ AccountScopeVariant.addressStart address = ChainIdVariant.addressStart address
  /\ AccountScopeVariant.addressMiddle address = ChainIdVariant.addressMiddle address
  /\ AccountScopeVariant.addressEnd address = ChainIdVariant.addressEnd address.
Proof.
  intros Hlen n. split; [|repeat split; reflexivity].
  rewrite addressStart_take, addressEnd_drop, (addressMiddle_short _ Hlen).
  fold n. repeat split.
  - rewrite take_take_drop.
    replace (n - 5 + (Nat.min 6 n - (n - 5))) with (Nat.min 6 n) by lia.
    symmetry. apply take_min.
  - replace (JsString.drop (Nat.min 6 n) address)
      with (JsString.drop (Nat.min 6 n - (n - 5)) (JsString.drop (n - 5) address)).
    + symmetry. apply take_drop.
    + rewrite drop_drop. f_equal. lia.
Qed.

End Segmentation.

Lemma segments_reassemble_the_address_witness :
  (ChainIdVariant.addressStart "0x123456789"
     +:+ ChainIdVariant.addressMiddle "0x123456789"
     +:+ ChainIdVariant.addressEnd "0x123456789" = "0x123456789"
   /\ String.length (ChainIdVariant.addressStart "0x123456789") = 6%nat
   /\ String.length (ChainIdVariant.addressEnd "0x123456789") = 5%nat
   /\ (String.length "0x123456789" = 11%nat ->
       ChainIdVariant.addressMiddle "0x123456789" = ""
       /\ ChainIdVariant.addressStart "0x123456789"
            +:+ ChainIdVariant.addressEnd "0x123456789" = "0x123456789"))
  /\ AccountScopeVariant.addressStart "0x123456789"
     = ChainIdVariant.addressStart "0x123456789"
  /\ AccountScopeVariant.addressMiddle "0x123456789"
     = ChainIdVariant.addressMiddle "0x123456789"
  /\ AccountScopeVariant.addressEnd "0x123456789"
     = ChainIdVariant.addressEnd "0x123456789".
Proof.
  apply (segments_reassemble_the_address "0x123456789"). simpl. lia.
Defined.

Lemma short_address_segments_overlap_witness :
  ChainIdVariant.addressStart "abcdefgh" = "abcdef"
  /\ ChainIdVariant.addressMiddle "abcdefgh" = "def"
  /\ ChainIdVariant.addressEnd "abcdefgh" = "defgh".
Proof.
  assert (Hshort : (String.length "abcdefgh" < 11)%nat) by (simpl; lia).
  destruct (short_address_segments_overlap "abcdefgh" Hshort)
    as [(Hstart & Hend & Hmiddle & _) _].
  rewrite Hstart, Hend, Hmiddle. repeat split; reflexivity.
Defined.

(** * The scannable code *)




(** * Further properties of the lookup by chain identifier *)

Section LookupProperties.
Variable toEvmCaipChainId : string -> completion string.
Variable registry : gmap string NetworkConfiguration.

Local Abbreviation caipChainId := (ChainIdVariant.caipChainId toEvmCaipChainId).
Local Abbreviation multichainNetwork :=
  (ChainIdVariant.multichainNetwork toEvmCaipChainId registry).
Local Abbreviation AddressQRCodeModal :=
  (ChainIdVariant.AddressQRCodeModal toEvmCaipChainId registry).

Lemma truthy_true (s : string) : JsString.truthy s = true <-> s <> "".
Proof. destruct s; split; (discriminate || congruence || reflexivity). Qed.

(** X1. A render logs at most one warning, and it logs none exactly when the
    chain identifier is empty, starts with [eip155:], or starts with [0x]
    and is accepted by the converter. *)
Theorem warnings_only_for_unusable_chain_ids (chainId : string) :
  (List.length (snd (multichainNetwork chainId)) <= 1)%nat
  /\ (snd (multichainNetwork chainId) = []
      <-> chainId = ""
          \/ JsString.startsWith chainId "eip155:" = true
          \/ (JsString.startsWith chainId "0x" = true
              /\ exists converted, toEvmCaipChainId chainId = Normal converted)).
Proof.
  unfold ChainIdVariant.multichainNetwork, ChainIdVariant.caipChainId.
  destruct (JsString.truthy chainId) eqn:Hid.
  - apply truthy_true in Hid.
    destruct (JsString.startsWith chainId "eip155:") eqn:Hcaip.
    { cbn. split; [lia|]. split; [intros _; right; left; reflexivity | reflexivity]. }
    destruct (JsString.startsWith chainId "0x") eqn:Hhex.
    + destruct (toEvmCaipChainId chainId) as [converted|error] eqn:Hconv.
      * cbn. split; [lia|]. split; [|reflexivity].
        intros _. right. right. split; [reflexivity|]. now exists converted.
      * cbn. split; [lia|]. split; [discriminate|].
        intros [Hempty | [Hfalse | [_ [converted Hnormal]]]];
          [contradiction | discriminate | discriminate].
    + cbn. split; [lia|]. split; [discriminate|].
      intros [Hempty | [Hfalse | [Hfalse _]]];
        [contradiction | discriminate | discriminate].
  - apply truthy_false in Hid. cbn. split; [lia|].
    split; [intros _; now left | reflexivity].
Qed.

(** X2. With a converter that only returns ids of the [eip155] namespace, a
    resolved network is always the registry entry of a key that starts with
    [eip155:], and resolving one logs nothing. *)
Theorem resolved_network_is_an_eip155_entry (chainId : string)
    (network : NetworkConfiguration) :
  (forall hex converted,
      toEvmCaipChainId hex = Normal converted ->
      JsString.startsWith converted "eip155:" = true) ->
  fst (multichainNetwork chainId) = Some network ->
  exists key,
    JsString.startsWith key "eip155:" = true
    /\ registry !! key = Some network
    /\ multichainNetwork chainId = (Some network, []).
Proof.
  intros Hnamespace.
  unfold ChainIdVariant.multichainNetwork, ChainIdVariant.caipChainId.
  destruct (JsString.truthy chainId); [|discriminate].
  destruct (JsString.startsWith chainId "eip155:") eqn:Hcaip.
  - rewrite (startsWith_truthy _ _ _ Hcaip). cbn [fst]. intros Hfound.
    exists chainId. now rewrite Hfound.
  - destruct (JsString.startsWith chainId "0x"); [|discriminate].
    destruct (toEvmCaipChainId chainId) as [converted|error] eqn:Hconv;
      [|discriminate].
    specialize (Hnamespace _ _ Hconv).
    rewrite (startsWith_truthy _ _ _ Hnamespace). cbn [fst]. intros Hfound.
    exists converted. now rewrite Hfound.
Qed.

(** X3. A hex chain identifier and the [eip155] id the converter turns it
    into give the same lookup result, record and console alike. *)
Theorem hex_and_caip_forms_resolve_alike (chainId converted : string) :
  JsString.startsWith chainId "eip155:" = false ->
  JsString.startsWith chainId "0x" = true ->
  toEvmCaipChainId chainId = Normal converted ->
  JsString.startsWith converted "eip155:" = true ->
  multichainNetwork chainId = multichainNetwork converted
  /\ multichainNetwork chainId = (registry !! converted, []).
Proof.
  intros Hcaip Hhex Hconv Hnamespace.
  destruct (eip155_id_passes_through toEvmCaipChainId registry converted Hnamespace)
    as [_ ->].
  split; unfold ChainIdVariant.multichainNetwork, ChainIdVariant.caipChainId;
    now rewrite (startsWith_truthy _ _ _ Hhex), Hcaip, Hhex, Hconv,
      (startsWith_truthy _ _ _ Hnamespace).
Qed.

(** X4. A render that logs a warning is degraded throughout: the network
    name is the placeholder, the button carries the generic label and a
    click opens nothing. This holds of the values derived from the lookup,
    and of the output of every render that completes. *)
Theorem warning_means_degraded_render (address chainId : string) :
  fst (AddressQRCodeModal address chainId) <> [] ->
  (ChainIdVariant.networkName (fst (multichainNetwork chainId)) = "Unknown Network"
   /\ ChainIdVariant.getExplorerButtonText (fst (multichainNetwork chainId))
      = "View on Explorer"
   /\ ChainIdVariant.handleExplorerNavigation (fst (multichainNetwork chainId))
        address = [])
  /\ (forall rendered,
        snd (AddressQRCodeModal address chainId) = Normal rendered ->
        ChainIdVariant.r_networkName rendered = "Unknown Network"
        /\ ChainIdVariant.r_explorerButtonText rendered = "View on Explorer"
        /\ ChainIdVariant.r_onExplorerClick rendered = []).
Proof.
  rewrite AddressQRCodeModal_outcome. cbn [fst snd]. intros Hwarned.
  assert (Hnone : fst (multichainNetwork chainId) = None).
  { revert Hwarned.
    unfold ChainIdVariant.multichainNetwork, ChainIdVariant.caipChainId.
    destruct (JsString.truthy chainId); [|now cbn].
    destruct (JsString.startsWith chainId "eip155:"); [now cbn|].
    destruct (JsString.startsWith chainId "0x"); [|reflexivity].
    destruct (toEvmCaipChainId chainId) as [converted|error];
      [now cbn | reflexivity]. }
  rewrite Hnone. split; [repeat split; reflexivity|].
  intros rendered.
  destruct (ChainIdVariant.qrImage address); [|discriminate].
  intros [= <-]. repeat split; reflexivity.
Qed.

(** X5. The network name shown is never empty: it is the record's name when
    that is not empty, and "Unknown Network" for a record with an empty
    name as for no record. *)
Theorem network_name_is_never_empty (network : option NetworkConfiguration) :
  JsString.truthy (ChainIdVariant.networkName network) = true
  /\ ChainIdVariant.networkName network
     = match network with
       | Some n => if decide (name n = "") then "Unknown Network" else name n
       | None => "Unknown Network"
       end.
Proof.
  destruct network as [n|]; cbn; [|split; reflexivity].
  destruct (JsString.truthy (name n)) eqn:Hname.
  - split; [exact Hname|]. apply truthy_true in Hname. now rewrite decide_False.
  - apply truthy_false in Hname. rewrite Hname. split; reflexivity.
Qed.

End LookupProperties.

Lemma hexToEvmCaipChainId_namespace (hex converted : string) :
  hexToEvmCaipChainId hex = Normal converted ->
  JsString.startsWith converted "eip155:" = true.
Proof.
  unfold hexToEvmCaipChainId.
  destruct (JsString.startsWith hex "0x"); [|discriminate].
  destruct (JsString.drop 2 hex) as [|c digits]; [discriminate|].
  destruct (parseHex 0 (String c digits)) as [n|]; [|discriminate].
  destruct (n <=? MAX_SAFE_INTEGER)%N; [|discriminate].
  intros [= <-]. reflexivity.
Qed.

Lemma resolved_network_is_an_eip155_entry_witness :
  exists key,
    JsString.startsWith key "eip155:" = true
    /\ Stories.networkConfigurationsByChainId !! key = Some Stories.polygonMainnet
    /\ ChainIdVariant.multichainNetwork hexToEvmCaipChainId
         Stories.networkConfigurationsByChainId "0x89"
       = (Some Stories.polygonMainnet, []).
Proof.
  apply (resolved_network_is_an_eip155_entry hexToEvmCaipChainId
           Stories.networkConfigurationsByChainId "0x89" Stories.polygonMainnet).
  - exact hexToEvmCaipChainId_namespace.
  - vm_compute. reflexivity.
Defined.

Lemma hex_and_caip_forms_resolve_alike_witness :
  ChainIdVariant.multichainNetwork hexToEvmCaipChainId
    Stories.networkConfigurationsByChainId "0xa4b1"
  = ChainIdVariant.multichainNetwork hexToEvmCaipChainId
      Stories.networkConfigurationsByChainId "eip155:42161"
  /\ ChainIdVariant.multichainNetwork hexToEvmCaipChainId
       Stories.networkConfigurationsByChainId "0xa4b1"
     = (Stories.networkConfigurationsByChainId !! "eip155:42161", []).
Proof.
  apply (hex_and_caip_forms_resolve_alike hexToEvmCaipChainId
           Stories.networkConfigurationsByChainId "0xa4b1" "eip155:42161").
  - reflexivity.
  - reflexivity.
  - vm_compute. reflexivity.
  - reflexivity.
Defined.

Lemma warning_means_degraded_render_witness :
  (ChainIdVariant.networkName
     (fst (ChainIdVariant.multichainNetwork hexToEvmCaipChainId
             Stories.networkConfigurationsByChainId Stories.BITCOIN_MAINNET))
   = "Unknown Network"
   /\ ChainIdVariant.getExplorerButtonText
        (fst (ChainIdVariant.multichainNetwork hexToEvmCaipChainId
                Stories.networkConfigurationsByChainId Stories.BITCOIN_MAINNET))
      = "View on Explorer"
   /\ ChainIdVariant.handleExplorerNavigation
        (fst (ChainIdVariant.multichainNetwork hexToEvmCaipChainId
                Stories.networkConfigurationsByChainId Stories.BITCOIN_MAINNET))
        "0x2468135790abcdef1234567890abcdef12345678" = [])
  /\ (forall rendered,
        snd (ChainIdVariant.AddressQRCodeModal hexToEvmCaipChainId
               Stories.networkConfigurationsByChainId
               "0x2468135790abcdef1234567890abcdef12345678"
               Stories.BITCOIN_MAINNET) = Normal rendered ->
        ChainIdVariant.r_networkName rendered = "Unknown Network"
        /\ ChainIdVariant.r_explorerButtonText rendered = "View on Explorer"
        /\ ChainIdVariant.r_onExplorerClick rendered = []).
Proof.
  apply (warning_means_degraded_render hexToEvmCaipChainId
           Stories.networkConfigurationsByChainId).
  vm_compute. discriminate.
Defined.

(** * Further properties of the explorer button *)

Section ExplorerProperties.

Lemma length_append (a b : string) :
  String.length (a +:+ b) = (String.length a + String.length b)%nat.
Proof.
  induction a as [|c a IH]; [reflexivity|].
  rewrite append_cons. cbn [String.length]. now rewrite IH.
Qed.

Lemma truthy_append_r (a b : string) :
  JsString.truthy b = true -> JsString.truthy (a +:+ b) = true.
Proof. destruct a; [now rewrite append_empty_l | reflexivity]. Qed.

Lemma addressLink_truthy (base address : string) :
  JsString.truthy (base +:+ "/address/" +:+ address) = true.
Proof. apply truthy_append_r. reflexivity. Qed.

(** A string that stripping leaves alone does not end in a slash. *)
Lemma unchanged_has_no_trailing_slash (url : string) :
  JsString.replaceTrailingSlash url = url -> ~ endsWithSlash url.
Proof.
  intros Hfixed [v ->]. rewrite replaceTrailingSlash_slash in Hfixed.
  apply (f_equal String.length) in Hfixed. rewrite length_append in Hfixed.
  cbn in Hfixed. lia.
Qed.

(** X6. A branded label is never a dead button: when the label is not the
    generic one, a click opens exactly one link, and that link is not
    empty. *)
Theorem branded_label_means_click_navigates
    (network : option NetworkConfiguration) (address : string) :
  ChainIdVariant.getExplorerButtonText network <> "View on Explorer" ->
  exists addressLink,
    ChainIdVariant.handleExplorerNavigation network address
    = [openBlockExplorer addressLink "Address QR Code Modal"]
    /\ JsString.truthy addressLink = true.
Proof.
  unfold ChainIdVariant.getExplorerButtonText, ChainIdVariant.handleExplorerNavigation.
  destruct (ChainIdVariant.firstExplorerUrl network) as [explorerUrl|].
  - intros _. eexists. split; [reflexivity | apply addressLink_truthy].
  - intros Hlabel. now destruct Hlabel.
Qed.

(** X7. Label and link read nothing of the network but its first explorer
    URL: two networks that share it get the same label and the same link,
    whatever their other URLs and fields. *)
Theorem explorer_button_reads_only_the_first_url
    (network1 network2 : NetworkConfiguration) (explorerUrl : string)
    (others1 others2 : list string) (address : string) :
  blockExplorerUrls network1 = Some (explorerUrl :: others1) ->
  blockExplorerUrls network2 = Some (explorerUrl :: others2) ->
  ChainIdVariant.getExplorerButtonText (Some network1)
  = ChainIdVariant.getExplorerButtonText (Some network2)
  /\ ChainIdVariant.handleExplorerNavigation (Some network1) address
     = ChainIdVariant.handleExplorerNavigation (Some network2) address.
Proof.
  intros Hurls1 Hurls2.
  unfold ChainIdVariant.getExplorerButtonText, ChainIdVariant.handleExplorerNavigation.
  rewrite (firstExplorerUrl_first _ _ _ Hurls1), (firstExplorerUrl_first _ _ _ Hurls2).
  split; reflexivity.
Qed.

(** X8. One trailing slash on the first explorer URL is immaterial: a URL
    that does not end in a slash and the same URL followed by a slash open
    the same link. Only one slash is removed: a URL followed by two slashes
    keeps one before [/address/]. *)
Theorem trailing_slash_is_immaterial
    (plain slashed doubled : NetworkConfiguration) (explorerUrl : string)
    (others1 others2 others3 : list string) (address : string) :
  ~ endsWithSlash explorerUrl ->
  blockExplorerUrls plain = Some (explorerUrl :: others1) ->
  blockExplorerUrls slashed = Some ((explorerUrl +:+ "/") :: others2) ->
  blockExplorerUrls doubled = Some ((explorerUrl +:+ "//") :: others3) ->
  ChainIdVariant.handleExplorerNavigation (Some plain) address
  = [openBlockExplorer (explorerUrl +:+ "/address/" +:+ address)
       "Address QR Code Modal"]
  /\ ChainIdVariant.handleExplorerNavigation (Some slashed) address
     = ChainIdVariant.handleExplorerNavigation (Some plain) address
  /\ ChainIdVariant.handleExplorerNavigation (Some doubled) address
     = [openBlockExplorer (explorerUrl +:+ "//address/" +:+ address)
          "Address QR Code Modal"].
Proof.
  intros Hplain Hurls1 Hurls2 Hurls3.
  unfold ChainIdVariant.handleExplorerNavigation.
  rewrite (firstExplorerUrl_first _ _ _ Hurls1), (firstExplorerUrl_first _ _ _ Hurls2),
    (firstExplorerUrl_first _ _ _ Hurls3).
  rewrite replaceTrailingSlash_slash.
  rewrite (replaceTrailingSlash_other explorerUrl)
    by (intros v Hv; apply Hplain; now exists v).
  replace (explorerUrl +:+ "//") with ((explorerUrl +:+ "/") +:+ "/")
    by (now rewrite append_assoc).
  rewrite replaceTrailingSlash_slash, append_assoc.
  repeat split; reflexivity.
Qed.

(** X9. In both revisions a click opens at most one link, never an empty
    one, and always reports "Address QR Code Modal" as its origin. *)
Theorem click_opens_at_most_one_nonempty_link
    (network : option NetworkConfiguration) (address : string)
    (getMultichainAccountUrl : string -> option NetworkConfiguration -> string)
    (registry : gmap string NetworkConfiguration)
    (accountInfo account : option InternalAccount) :
  ((List.length (ChainIdVariant.handleExplorerNavigation network address) <= 1)%nat
   /\ Forall wellFormedCall
        (ChainIdVariant.handleExplorerNavigation network address))
  /\ (List.length
        (AccountScopeButtons.handleExplorerNavigation getMultichainAccountUrl
           registry accountInfo account address) <= 1)%nat
  /\ Forall wellFormedCall
       (AccountScopeButtons.handleExplorerNavigation getMultichainAccountUrl
          registry accountInfo account address).
Proof.
  split.
  - unfold ChainIdVariant.handleExplorerNavigation.
    destruct (ChainIdVariant.firstExplorerUrl network) as [explorerUrl|].
    + split; [cbn; lia|]. repeat constructor. apply addressLink_truthy.
    + split; [cbn; lia | constructor].
  - unfold AccountScopeButtons.handleExplorerNavigation.
    destruct account, accountInfo;
      try (destruct (JsString.truthy (getMultichainAccountUrl _ _)) eqn:Hlink);
      cbn; repeat split; try lia; repeat constructor; try exact Hlink.
Qed.

End ExplorerProperties.

Lemma branded_label_means_click_navigates_witness :
  exists addressLink,
    ChainIdVariant.handleExplorerNavigation (Some Stories.arbitrumOne)
      "0x2468135790abcdef1234567890abcdef12345678"
    = [openBlockExplorer addressLink "Address QR Code Modal"]
    /\ JsString.truthy addressLink = true.
Proof.
  apply (branded_label_means_click_navigates (Some Stories.arbitrumOne)).
  vm_compute. discriminate.
Defined.

Lemma explorer_button_reads_only_the_first_url_witness :
  ChainIdVariant.getExplorerButtonText (Some Stories.polygonMainnet)
  = ChainIdVariant.getExplorerButtonText (Some Examples.amoy)
  /\ ChainIdVariant.handleExplorerNavigation (Some Stories.polygonMainnet)
       "0xabcdef1234567890abcdef1234567890abcdef12"
     = ChainIdVariant.handleExplorerNavigation (Some Examples.amoy)
         "0xabcdef1234567890abcdef1234567890abcdef12".
Proof.
  apply (explorer_button_reads_only_the_first_url Stories.polygonMainnet
           Examples.amoy "https://polygonscan.com" []
           ["https://amoy.polygonscan.com"]);
    reflexivity.
Defined.

Lemma trailing_slash_is_immaterial_witness :
  ChainIdVariant.handleExplorerNavigation
    (Some (Examples.gnosisWithExplorer "https://gnosis.blockscout.com")) "0xabc"
  = [openBlockExplorer ("https://gnosis.blockscout.com" +:+ "/address/" +:+ "0xabc")
       "Address QR Code Modal"]
  /\ ChainIdVariant.handleExplorerNavigation
       (Some (Examples.gnosisWithExplorer "https://gnosis.blockscout.com/")) "0xabc"
     = ChainIdVariant.handleExplorerNavigation
         (Some (Examples.gnosisWithExplorer "https://gnosis.blockscout.com")) "0xabc"
  /\ ChainIdVariant.handleExplorerNavigation
       (Some (Examples.gnosisWithExplorer "https://gnosis.blockscout.com//")) "0xabc"
     = [openBlockExplorer
          ("https://gnosis.blockscout.com" +:+ "//address/" +:+ "0xabc")
          "Address QR Code Modal"].
Proof.
  apply (trailing_slash_is_immaterial
           (Examples.gnosisWithExplorer "https://gnosis.blockscout.com")
           (Examples.gnosisWithExplorer "https://gnosis.blockscout.com/")
           (Examples.gnosisWithExplorer "https://gnosis.blockscout.com//")
           "https://gnosis.blockscout.com" [] [] []).
  - apply unchanged_has_no_trailing_slash. reflexivity.
  - reflexivity.
  - reflexivity.
  - reflexivity.
Defined.

(** * Further properties of the segmentation *)

Section SegmentationProperties.
Local Open Scope nat_scope.

(** Whatever the positions, [substring] returns a contiguous part of the
    string. *)
Lemma substring_contains (s : string) (start : Z) (end_ : option Z) :
  contains s (JsString.substring s start end_).
Proof.
  unfold JsString.substring.
  match goal with
  | |- contains _ (JsString.take ?count (JsString.drop ?from _)) =>
      exists (JsString.take from s), (JsString.drop count (JsString.drop from s))
  end.
  now rewrite take_drop, take_drop.
Qed.

(** X10. For an address of any length the first segment is a prefix of the
    address, of six code units or the whole address, and the last segment
    is a suffix, of five code units or the whole address. *)
Theorem start_is_a_prefix_and_end_a_suffix (address : string) :
  JsString.startsWith address (ChainIdVariant.addressStart address) = true
  /\ String.length (ChainIdVariant.addressStart address)
     = Nat.min 6 (String.length address)
  /\ (exists before, address = before +:+ ChainIdVariant.addressEnd address)
  /\ String.length (ChainIdVariant.addressEnd address)
     = Nat.min 5 (String.length address).
Proof.
  rewrite addressStart_take, addressEnd_drop. repeat split.
  - apply startsWith_append. exists (JsString.drop 6 address).
    now rewrite take_drop.
  - apply take_length.
  - exists (JsString.take (String.length address - 5) address).
    now rewrite take_drop.
  - rewrite drop_length. lia.
Qed.

Lemma short_segments_length (address : string) :
  String.length address < 11 ->
  String.length (ChainIdVariant.addressStart address
                 +:+ ChainIdVariant.addressMiddle address
                 +:+ ChainIdVariant.addressEnd address)
  = 2 * Nat.min 6 (String.length address)
    + Nat.min 5 (String.length address) - (String.length address - 5).
Proof.
  intros Hshort.
  rewrite addressStart_take, addressEnd_drop, (addressMiddle_short _ Hshort).
  rewrite !length_append, !take_length, !drop_length. lia.
Qed.

(** X11. The three segments put together give back the address exactly when
    it has at least eleven code units or is empty; for one to ten code
    units the segments overlap and the text shown is longer than the
    address. *)
Theorem segments_reassemble_iff_long_or_empty (address : string) :
  (ChainIdVariant.addressStart address +:+ ChainIdVariant.addressMiddle address
     +:+ ChainIdVariant.addressEnd address = address
   <-> 11 <= String.length address \/ address = "")
  /\ (0 < String.length address < 11 ->
      String.length address
      < String.length (ChainIdVariant.addressStart address
                       +:+ ChainIdVariant.addressMiddle address
                       +:+ ChainIdVariant.addressEnd address)).
Proof.
  assert (Hlonger : 0 < String.length address < 11 ->
            String.length address
            < String.length (ChainIdVariant.addressStart address
                             +:+ ChainIdVariant.addressMiddle address
                             +:+ ChainIdVariant.addressEnd address)).
  { intros [Hpos Hshort]. rewrite (short_segments_length _ Hshort). lia. }
  split; [|exact Hlonger]. split.
  - intros Hsame.
    destruct (Nat.le_gt_cases 11 (String.length address)) as [Hlong | Hshort];
      [now left | right].
    destruct address as [|c rest]; [reflexivity|].
    assert (Hpos : 0 < String.length (String c rest) < 11) by (cbn in *; lia).
    apply Hlonger in Hpos. rewrite Hsame in Hpos. lia.
  - intros [Hlong | ->]; [|reflexivity].
    rewrite addressStart_take, addressEnd_drop, (addressMiddle_long _ Hlong).
    rewrite <- append_assoc, take_take_drop.
    replace (6 + (String.length address - 11)) with (String.length address - 5)
      by lia.
    apply take_drop.
Qed.

(** X12. Each segment is a contiguous part of the address, for an address of
    any length: nothing is shown that the address does not contain. *)
Theorem every_segment_is_part_of_the_address (address : string) :
  contains address (ChainIdVariant.addressStart address)
  /\ contains address (ChainIdVariant.addressMiddle address)
  /\ contains address (ChainIdVariant.addressEnd address).
Proof. repeat split; apply substring_contains. Qed.

End SegmentationProperties.

(** * The header name and the account revision's buttons *)

Section AccountProperties.
Variable getAccountTypeCategory : InternalAccount -> string.
Variable getMultichainAccountUrl : string -> option NetworkConfiguration -> string.
Variable registry : gmap string NetworkConfiguration.
Variable internalAccounts : list InternalAccount.

(** X13. The account name shown is the first non-empty one of the known
    account's name and the prop account's name: a known account without a
    name falls through to the prop, and the name is empty only when both
    are. *)
Theorem account_name_is_first_nonempty (accountInfo account : option InternalAccount) :
  (Header.nameOf accountInfo <> "" ->
   Header.accountName accountInfo account = Header.nameOf accountInfo)
  /\ (Header.nameOf accountInfo = "" ->
      Header.accountName accountInfo account = Header.nameOf account)
  /\ (Header.accountName accountInfo account = ""
      <-> Header.nameOf accountInfo = "" /\ Header.nameOf account = "").
Proof.
  unfold Header.accountName.
  destruct (Header.nameOf accountInfo) as [|c infoName]; cbn [JsString.truthy].
  - destruct (Header.nameOf account) as [|d propName]; cbn [JsString.truthy];
      intuition congruence.
  - intuition congruence.
Qed.

(** X14. When the address belongs to a known account, the [account] prop has
    no say: network, button label and click are those of the known account,
    and so is the name when the known account has one. *)
Theorem known_account_overrides_the_account_prop
    (addr : string) (known : InternalAccount) (account : option InternalAccount) :
  AccountScopeVariant.getInternalAccountByAddress internalAccounts addr = Some known ->
  let accountInfo :=
    AccountScopeVariant.getInternalAccountByAddress internalAccounts addr in
  AccountScopeButtons.multichainNetwork registry accountInfo account
  = AccountScopeVariant.getMultichainNetwork registry known
  /\ AccountScopeButtons.getExplorerButtonText getAccountTypeCategory
       accountInfo account
     = AccountScopeButtons.getExplorerButtonText getAccountTypeCategory
         (Some known) None
  /\ AccountScopeButtons.handleExplorerNavigation getMultichainAccountUrl registry
       accountInfo account addr
     = AccountScopeButtons.handleExplorerNavigation getMultichainAccountUrl registry
         (Some known) None addr
  /\ (metadata_name known <> "" ->
      Header.accountName accountInfo account = metadata_name known).
Proof.
  intros Hknown accountInfo. subst accountInfo. rewrite Hknown.
  split; [reflexivity|]. split; [reflexivity|]. split.
  - unfold AccountScopeButtons.handleExplorerNavigation. now destruct account.
  - intros Hname. unfold Header.accountName. cbn [Header.nameOf].
    now rewrite (proj2 (truthy_true _) Hname).
Qed.

End AccountProperties.

Lemma known_account_overrides_the_account_prop_witness :
  AccountScopeButtons.multichainNetwork Stories.networkConfigurationsByChainId
    (AccountScopeVariant.getInternalAccountByAddress Stories.internalAccounts
       (address Stories.arbitrum))
    (Some Stories.polygon)
  = AccountScopeVariant.getMultichainNetwork Stories.networkConfigurationsByChainId
      Stories.arbitrum
  /\ AccountScopeButtons.getExplorerButtonText (fun _ => "evm")
       (AccountScopeVariant.getInternalAccountByAddress Stories.internalAccounts
          (address Stories.arbitrum))
       (Some Stories.polygon)
     = AccountScopeButtons.getExplorerButtonText (fun _ => "evm")
         (Some Stories.arbitrum) None
  /\ AccountScopeButtons.handleExplorerNavigation (fun _ _ => "")
       Stories.networkConfigurationsByChainId
       (AccountScopeVariant.getInternalAccountByAddress Stories.internalAccounts
          (address Stories.arbitrum))
       (Some Stories.polygon) (address Stories.arbitrum)
     = AccountScopeButtons.handleExplorerNavigation (fun _ _ => "")
         Stories.networkConfigurationsByChainId
         (Some Stories.arbitrum) None (address Stories.arbitrum)
  /\ (metadata_name Stories.arbitrum <> "" ->
      Header.accountName
        (AccountScopeVariant.getInternalAccountByAddress Stories.internalAccounts
           (address Stories.arbitrum))
        (Some Stories.polygon)
      = metadata_name Stories.arbitrum).
Proof.
  apply (known_account_overrides_the_account_prop (fun _ => "evm") (fun _ _ => "")
           Stories.networkConfigurationsByChainId Stories.internalAccounts
           (address Stories.arbitrum) Stories.arbitrum (Some Stories.polygon)).
  reflexivity.
Defined.

(** * The store the stories build *)

Section StoryStateProperties.
Variable mock : gmap string (gmap string StoryState.JsValue).

Lemma withoutEthereum_lookup (key : string) :
  StoryState.withoutEthereum mock !! key
  = if decide (key = "0x1") then None else mock !! key.
Proof.
  unfold StoryState.withoutEthereum. rewrite map_lookup_filter.
  destruct (mock !! key) as [configuration|]; cbn; case_decide; try done.
  - subst key. by rewrite option_guard_False by (cbn; tauto).
  - by rewrite option_guard_True.
Qed.

(** The lookup in the store, key by key. *)
Lemma networkConfigurations_lookup (key : string) :
  StoryState.networkConfigurationsByChainId mock !! key
  = if decide (key = "0x1") then Some (StoryState.ethereumConfiguration mock)
    else match mock !! key with
         | Some configuration => Some configuration
         | None =>
             if decide (key = "0x89") then Some StoryState.polygonConfiguration
             else if decide (key = "0xa4b1")
                  then Some StoryState.arbitrumConfiguration
                  else None
         end.
Proof.
  unfold StoryState.networkConfigurationsByChainId.
  rewrite lookup_union, withoutEthereum_lookup.
  case_decide as Hkey.
  - subst key. rewrite (left_id_L None _). by simplify_map_eq.
  - destruct (mock !! key) as [configuration|].
    + by destruct (_ !! key).
    + rewrite (left_id_L None _). repeat case_decide; by simplify_map_eq.
Qed.

(** X15. Whatever the mock state holds, the store of the stories has an
    entry for [0x1] whose name is "Ethereum Mainnet" and whose other fields
    are those of the mock state's [0x1] entry, none when there is no such
    entry. *)
Theorem story_ethereum_entry_is_renamed :
  exists configuration,
    StoryState.networkConfigurationsByChainId mock !! "0x1" = Some configuration
    /\ configuration !! "name" = Some (StoryState.JsStr "Ethereum Mainnet")
    /\ forall field,
         field ≠ "name" ->
         configuration !! field = (default ∅ (mock !! "0x1")) !! field.
Proof.
  exists (StoryState.ethereumConfiguration mock). split; [|split].
  - rewrite networkConfigurations_lookup. by rewrite decide_True.
  - unfold StoryState.ethereumConfiguration. by simplify_map_eq.
  - intros field Hfield. unfold StoryState.ethereumConfiguration.
    by rewrite lookup_insert_ne.
Qed.

(** X16. Under every key but [0x1] an entry of the mock state wins over the
    entry the story writes: the Polygon and Arbitrum configurations of the
    story show only when the mock state has none under [0x89] and
    [0xa4b1]. *)
Theorem mock_entries_override_story_networks (key : string) :
  key ≠ "0x1" ->
  StoryState.networkConfigurationsByChainId mock !! key
  = match mock !! key with
    | Some configuration => Some configuration
    | None =>
        if decide (key = "0x89") then Some StoryState.polygonConfiguration
        else if decide (key = "0xa4b1") then Some StoryState.arbitrumConfiguration
        else None
    end.
Proof.
  intros Hkey. rewrite networkConfigurations_lookup. by rewrite decide_False.
Qed.

(** X17. The keys of the store are the keys of the mock state together with
    [0x1], [0x89] and [0xa4b1]: nothing of the mock state is lost and only
    these three can be added. *)
Theorem story_networks_key_set :
  dom (StoryState.networkConfigurationsByChainId mock)
  = dom mock ∪ {["0x1"; "0x89"; "0xa4b1"]}.
Proof.
  apply set_eq. intros key.
  rewrite elem_of_union, !elem_of_dom, networkConfigurations_lookup.
  rewrite !elem_of_union, !elem_of_singleton.
  destruct (mock !! key) as [configuration|];
    repeat case_decide; subst; split; intros Hdom;
    try (by eauto); try (by right; eauto).
  all: try (by destruct Hdom as [? [=]]).
  all: try (destruct Hdom as [[? [=]] | [[?|?]|?]]; done).
Qed.

End StoryStateProperties.

Lemma mock_entries_override_story_networks_witness :
  StoryState.networkConfigurationsByChainId
    (<["0x89" := {["name" := StoryState.JsStr "Polygon (mock state)"]}]> ∅)
    !! "0x89"
  = Some {["name" := StoryState.JsStr "Polygon (mock state)"]}.
Proof.
  rewrite (mock_entries_override_story_networks _ "0x89") by discriminate.
  reflexivity.
Defined.
